(** * Brain-Tumour-Analyzer (src/app.py): a shallow embedding of the Streamlit
    script and of its session state.

    A Streamlit script is re-run from top to bottom on every interaction.  One
    re-run is modelled by [run]: it takes the session state ([Session], the
    keys of [st.session_state]) and the values of the widgets for this re-run
    ([Inputs]) and returns the new session state together with the list of
    elements the run writes on the page ([Element]).  Purely decorative calls
    ([st.title], [st.subheader], [st.divider], [st.caption]) are left out.

    Python strings are modelled as Rocq [string]s holding their UTF-8 bytes.
    The verdict of ReportLab's paragraph parser is a parameter ([para_ok],
    section [Script]); the theorems hold for every verdict. *)

From Stdlib Require Import String Ascii List Arith Lia.
From Stdlib Require Import Numbers.DecimalString Strings.Byte.
Import ListNotations.
Open Scope bool_scope.
Open Scope string_scope.

(* ------------------------------------------------------------------ *)
(** ** Python string primitives used by the script *)

Module Py.

(** The whitespace [str.strip()] removes is the set of code points for
    which [str.isspace()] holds: U+0009-U+000D, U+001C-U+0020, U+0085,
    U+00A0, U+1680, U+2000-U+200A, U+2028, U+2029, U+202F, U+205F and
    U+3000.  A string holds UTF-8 bytes, so they are recognised by their
    encodings: the one-byte ones, the two-byte ones (C2 85, C2 A0) and the
    three-byte ones. *)
Definition is_space1 (c : ascii) : bool :=
  let n := nat_of_ascii c in
  (((9 <=? n) && (n <=? 13)) || ((28 <=? n) && (n <=? 32)))%nat.

Definition is_space2 (c1 c2 : ascii) : bool :=
  let n1 := nat_of_ascii c1 in
  let n2 := nat_of_ascii c2 in
  (Nat.eqb n1 194 && (Nat.eqb n2 133 || Nat.eqb n2 160))%nat.

Definition is_space3 (c1 c2 c3 : ascii) : bool :=
  let n1 := nat_of_ascii c1 in
  let n2 := nat_of_ascii c2 in
  let n3 := nat_of_ascii c3 in
  (Nat.eqb n1 225 && Nat.eqb n2 154 && Nat.eqb n3 128               (* U+1680 *)
   || Nat.eqb n1 226 && Nat.eqb n2 128
      && ((128 <=? n3) && (n3 <=? 138)                              (* U+2000-U+200A *)
          || Nat.eqb n3 168 || Nat.eqb n3 169 || Nat.eqb n3 175)    (* U+2028, U+2029, U+202F *)
   || Nat.eqb n1 226 && Nat.eqb n2 129 && Nat.eqb n3 159            (* U+205F *)
   || Nat.eqb n1 227 && Nat.eqb n2 128 && Nat.eqb n3 128)%nat.      (* U+3000 *)

(** [s.lstrip()]: drop leading whitespace code points. *)
Fixpoint lstrip (s : string) : string :=
  match s with
  | EmptyString => EmptyString
  | String c1 s1 =>
      if is_space1 c1 then lstrip s1 else
      match s1 with
      | String c2 s2 =>
          if is_space2 c1 c2 then lstrip s2 else
          match s2 with
          | String c3 s3 => if is_space3 c1 c2 c3 then lstrip s3 else s
          | EmptyString => s
          end
      | EmptyString => s
      end
  end.

(** The same on the reversed bytes of a string, whose first code point is
    the last one of the string with its bytes in reverse order. *)
Fixpoint lstrip_rev (s : string) : string :=
  match s with
  | EmptyString => EmptyString
  | String c1 s1 =>
      if is_space1 c1 then lstrip_rev s1 else
      match s1 with
      | String c2 s2 =>
          if is_space2 c2 c1 then lstrip_rev s2 else
          match s2 with
          | String c3 s3 => if is_space3 c3 c2 c1 then lstrip_rev s3 else s
          | EmptyString => s
          end
      | EmptyString => s
      end
  end.

Fixpoint rev_string (s : string) (acc : string) : string :=
  match s with
  | EmptyString => acc
  | String c s' => rev_string s' (String c acc)
  end.

(** [s.rstrip()]: drop trailing whitespace code points. *)
Definition rstrip (s : string) : string :=
  rev_string (lstrip_rev (rev_string s EmptyString)) EmptyString.

(** [s.strip()] *)
Definition strip (s : string) : string := rstrip (lstrip s).

(** Truthiness of a [str]: [bool(s)] is [s != ""]. *)
Definition truthy (s : string) : bool :=
  match s with EmptyString => false | _ => true end.

(** [sep] is a prefix of [s]: returns what follows it. *)
Fixpoint strip_prefix (sep s : string) : option string :=
  match sep, s with
  | EmptyString, _ => Some s
  | String c sep', String d s' =>
      if Ascii.eqb c d then strip_prefix sep' s' else None
  | String _ _, EmptyString => None
  end.

(** First occurrence of [sep] in [s] ([s.find(sep)]): the text before it
    and the text after it. *)
Fixpoint find_sep (sep s : string) : option (string * string) :=
  match strip_prefix sep s with
  | Some rest => Some (EmptyString, rest)
  | None =>
      match s with
      | EmptyString => None
      | String c s' =>
          match find_sep sep s' with
          | Some (pre, post) => Some (String c pre, post)
          | None => None
          end
      end
  end.

(** [s.split(sep)] for a non-empty [sep]: cut at each occurrence, left to
    right.  Every cut shortens the remaining text, so [length s + 1] rounds
    are enough. *)
Fixpoint split_fuel (fuel : nat) (sep s : string) : list string :=
  match fuel with
  | O => [s]
  | S f =>
      match find_sep sep s with
      | None => [s]
      | Some (pre, post) => pre :: split_fuel f sep post
      end
  end.

Definition split (s sep : string) : list string :=
  split_fuel (S (String.length s)) sep s.

(** [s.replace(old, new)] for a non-empty [old]: non-overlapping
    occurrences, left to right. *)
Fixpoint replace_fuel (fuel : nat) (old new s : string) : string :=
  match fuel with
  | O => s
  | S f =>
      match find_sep old s with
      | None => s
      | Some (pre, post) => pre ++ new ++ replace_fuel f old new post
      end
  end.

Definition replace (s old new : string) : string :=
  replace_fuel (S (String.length s)) old new s.

(** [sep.join(xs)] *)
Fixpoint join (sep : string) (xs : list string) : string :=
  match xs with
  | [] => EmptyString
  | [x] => x
  | x :: xs' => x ++ sep ++ join sep xs'
  end.

(** [str(n)] of a non-negative [int]. *)
Definition str_of_nat (n : nat) : string :=
  NilEmpty.string_of_uint (Nat.to_uint n).

End Py.

(* ------------------------------------------------------------------ *)
(** ** [datetime.now().strftime(...)] *)

Record DateTime := mkDateTime {
  year : nat;    (* 1 .. 9999 *)
  month : nat;   (* 1 .. 12 *)
  day : nat      (* 1 .. 31 *)
}.

(** [%d] and [%m]: zero-padded to two digits. *)
Definition pad2 (n : nat) : string :=
  if (n <? 10)%nat then "0" ++ Py.str_of_nat n else Py.str_of_nat n.

(** [%B] in the C locale. *)
Definition month_name (m : nat) : string :=
  match m with
  | 1 => "January" | 2 => "February" | 3 => "March" | 4 => "April"
  | 5 => "May" | 6 => "June" | 7 => "July" | 8 => "August"
  | 9 => "September" | 10 => "October" | 11 => "November"
  | _ => "December"
  end.

(** [strftime('%d %B %Y')] *)
Definition fmt_report_date (t : DateTime) : string :=
  pad2 (day t) ++ " " ++ month_name (month t) ++ " " ++ Py.str_of_nat (year t).

(** [strftime("%d-%m-%Y")] *)
Definition fmt_record_date (t : DateTime) : string :=
  pad2 (day t) ++ "-" ++ pad2 (month t) ++ "-" ++ Py.str_of_nat (year t).

(* ------------------------------------------------------------------ *)
(** ** Report generator ([generate_full_medical_report], lines 92-140)

    The Python function reads the module-level widget values [patient_id],
    [patient_name], [patient_age], [patient_gender] and calls
    [datetime.now()]; here they are its arguments. *)

Definition generate_full_medical_report (patient_id patient_name : string)
    (patient_age : nat) (patient_gender : string) (now : DateTime) : string :=
  let tumor_type := "Glioma" in
  "
PATIENT MEDICAL REPORT
---------------------

Patient ID      : " ++ patient_id ++ "
Patient Name    : " ++ patient_name ++ "
Age             : " ++ Py.str_of_nat patient_age ++ " Years
Gender          : " ++ patient_gender ++ "
Report Date     : " ++ fmt_report_date now ++ "

MRI SCAN FINDINGS
----------------
The uploaded MRI brain scan was carefully examined.

Abnormal tissue structures were observed,
suggesting the presence of a brain lesion.

CLINICAL SYMPTOM ASSESSMENT
--------------------------
The patient reported neurological symptoms including
headache, visual disturbances, and cognitive discomfort.

The symptoms show clinical correlation with MRI findings.

FINAL DIAGNOSTIC CONCLUSION
--------------------------
Based on combined MRI imaging and symptom evaluation,
there is a high likelihood of a " ++ tumor_type ++ " brain tumor.

RISK ASSESSMENT
---------------
Risk Level : High

MEDICAL RECOMMENDATIONS
-----------------------
• Immediate consultation with a Neurologist
• Further diagnostic confirmation if required
• Continuous neurological monitoring
• Avoid delay in medical evaluation

DISCLAIMER
----------
This report is generated using an AI-assisted system
for educational and research purposes only.
It does not replace professional medical diagnosis.
".

(* ------------------------------------------------------------------ *)
(** ** PDF generator ([generate_pdf], lines 145-165)

    The ReportLab story is modelled as the list of flowables handed to
    [pdf.build]; the PDF bytes ReportLab lays out from it, and the temporary
    file they are written to, are not modelled.  The function itself is
    below, in section [Script]. *)

(** [0.2 * inch] is 14.4 points; heights are kept in tenths of a point. *)
Inductive Flowable :=
  | Paragraph (text : string) (style : string)
  | Spacer (width : nat) (height_tenths_pt : nat).

Record DocTemplate := mkDocTemplate {
  pagesize : string;
  rightMargin : nat; leftMargin : nat; topMargin : nat; bottomMargin : nat
}.

Record Document := mkDocument { template : DocTemplate; story : list Flowable }.

Definition pdf_template : DocTemplate := mkDocTemplate "A4" 40 40 40 40.

(** ** The script

    ReportLab's [Paragraph(text, style)] (line 161) parses [text] as its
    paragraph markup (tags such as [<b>], entities such as [&amp;]) and
    raises [ValueError] when it cannot, for instance on "a<b", where "<b"
    opens a tag that is never closed.  That parser is library code, not
    part of this repository: the development takes its verdict on a
    paragraph text as the parameter [para_ok] and holds for every such
    verdict. *)

Section Script.

Variable para_ok : string -> bool.

(** The loop of lines 160-162: [None] when a [Paragraph] raises. *)
Fixpoint story_of_lines (lines : list string) : option (list Flowable) :=
  match lines with
  | [] => Some []
  | line :: rest =>
      let text := Py.replace line "&" "&amp;" in
      if para_ok text then
        match story_of_lines rest with
        | Some st => Some (Paragraph text "Normal" :: Spacer 1 144 :: st)
        | None => None
        end
      else None
  end.

(** [None] when the export raises [ValueError]. *)
Definition generate_pdf (report_text : string) : option Document :=
  match story_of_lines (Py.split report_text "
") with
  | Some st => Some (mkDocument pdf_template st)
  | None => None
  end.

(* ------------------------------------------------------------------ *)
(** ** Session state and page elements *)

(** One entry of [st.session_state.patient_history]. *)
Record PatientRecord := mkPatientRecord {
  rec_id : string; rec_name : string; rec_date : string; rec_report : string
}.

Record Session := mkSession {
  patient_history : list PatientRecord;
  analysis_done : bool;
  latest_report : option string
}.

(** Lines 22-29: the keys a fresh session is given. *)
Definition init_session : Session := mkSession [] false None.

Inductive Button := AnalyzeSymptoms | GenerateFullReport.

(** An uploaded file: its name and bytes. *)
Record UploadedFile := mkUploadedFile { file_name : string; file_bytes : list byte }.

(** The widget values read by one re-run, and the two clock readings it
    takes ([datetime.now()] at line 103 and at line 185).  Streamlit reports
    at most one pressed button per re-run. *)
Record Inputs := mkInputs {
  patient_id : string;
  patient_name : string;
  patient_age : nat;          (* number_input, 1 .. 120 *)
  patient_gender : string;    (* selectbox: "Male", "Female" or "Other" *)
  show_confidence : bool;
  mri_file : option UploadedFile;
  symptoms : string;
  clicked : option Button;
  now_report : DateTime;
  now_record : DateTime
}.

(** The calls that write on the page, with the arguments the script passes
    them.  [Expander label text] is [st.expander(label)] holding
    [st.text(text)] (Streamlit renders the label as Markdown and shows the
    text dedented and stripped).  [ScriptError exc] is the traceback
    Streamlit shows when the re-run raises [exc]; the re-run stops there. *)
Inductive Element :=
  | Success (msg : string)
  | Warning (msg : string)
  | Info (msg : string)
  | TextArea (label value : string) (height : nat)
  | DownloadButton (label : string) (data : Document) (file_name mime : string)
  | Expander (label : string) (text : string)
  | ScriptError (exc : string).

(** Whether a block returned normally or raised. *)
Inductive Flow := Continue | Raise (exc : string).

(* ------------------------------------------------------------------ *)
(** ** The script, block by block *)

(** Lines 71-76. *)
Definition analyze_symptoms_block (i : Inputs) (s : Session)
    : Session * list Element :=
  if match clicked i with Some AnalyzeSymptoms => true | _ => false end then
    if Py.truthy (Py.strip (symptoms i)) then
      (mkSession (patient_history s) true (latest_report s),
       [Success "Symptoms analyzed successfully"])
    else (s, [Warning "Please enter symptoms"])
  else (s, []).

(** Lines 84-87. *)
Definition save_results_block (s : Session) : list Element :=
  if negb (analysis_done s) then
    [Info "No analysis results to save. Perform MRI or symptom analysis first."]
  else [Success "Analysis data ready to generate report."].

(** Lines 173-205.  The state is updated and the report shown (lines
    179-196) before [generate_pdf] is called (line 198); when it raises, the
    download button is never written. *)
Definition generate_report_block (i : Inputs) (s : Session)
    : Session * list Element * Flow :=
  if match clicked i with Some GenerateFullReport => true | _ => false end then
    if negb (Py.truthy (patient_id i)) || negb (Py.truthy (patient_name i)) then
      (s, [Warning "Please enter Patient ID and Patient Name"], Continue)
    else if negb (analysis_done s) then
      (s, [Warning "Perform analysis before generating report"], Continue)
    else
      let report_text :=
        generate_full_medical_report (patient_id i) (patient_name i)
          (patient_age i) (patient_gender i) (now_report i) in
      let record := mkPatientRecord (patient_id i) (patient_name i)
                      (fmt_record_date (now_record i)) report_text in
      let s' := mkSession ((patient_history s ++ [record])%list)
                  (analysis_done s) (Some report_text) in
      let shown := [Success "Full medical report generated and saved successfully";
                    TextArea "📄 Generated Medical Report" report_text 550] in
      match generate_pdf report_text with
      | Some pdf =>
          (s', (shown ++ [DownloadButton "📥 Download Report as PDF" pdf
                           (patient_name i ++ "_Medical_Report.pdf")
                           "application/pdf"])%list, Continue)
      | None => (s', shown, Raise "ValueError")
      end
  else (s, [], Continue).

(** [enumerate(xs, start=n)] *)
Fixpoint enumerate {A} (n : nat) (xs : list A) : list (nat * A) :=
  match xs with
  | [] => []
  | x :: xs' => (n, x) :: enumerate (S n) xs'
  end.

Definition history_label (i : nat) (r : PatientRecord) : string :=
  "🧾 " ++ Py.str_of_nat i ++ ". " ++ rec_name r ++ " (" ++ rec_date r ++ ")".

(** Lines 213-218. *)
Definition history_block (s : Session) : list Element :=
  match patient_history s with
  | [] => [Info "No patient history available yet."]
  | h =>
      map (fun '(i, r) => Expander (history_label i r) (rec_report r))
        (enumerate 1 h)
  end.

(** What closes the page: the history section when the re-run got there,
    the traceback when it raised. *)
Definition page_end (fl : Flow) (s : Session) : list Element :=
  match fl with
  | Continue => history_block s
  | Raise exc => [ScriptError exc]
  end.

(** One re-run of the whole script. *)
Definition run (s : Session) (i : Inputs) : Session * list Element :=
  let '(s1, o1) := analyze_symptoms_block i s in
  let o2 := save_results_block s1 in
  let '(s2, o3, fl) := generate_report_block i s1 in
  (s2, (o1 ++ o2 ++ o3 ++ page_end fl s2)%list).

Definition step (s : Session) (i : Inputs) : Session := fst (run s i).

Definition outputs (s : Session) (i : Inputs) : list Element := snd (run s i).

(** A session over a sequence of re-runs. *)
Fixpoint run_all (s : Session) (is : list Inputs) : Session :=
  match is with
  | [] => s
  | i :: is' => run_all (step s i) is'
  end.

(** Session states a user can reach from a fresh session. *)
Inductive reachable : Session -> Prop :=
  | reachable_init : reachable init_session
  | reachable_step s i : reachable s -> reachable (step s i).

(* ------------------------------------------------------------------ *)
(** ** Auxiliary definitions used in the statements *)

(** [needle] occurs in [hay]. *)
Definition contains (needle hay : string) : Prop :=
  exists pre post, hay = pre ++ needle ++ post.

(** The part of the template that names the patient, up to the date. *)
Definition patient_block (patient_id patient_name : string) (patient_age : nat)
    (patient_gender : string) : string :=
  "
PATIENT MEDICAL REPORT
---------------------

Patient ID      : " ++ patient_id ++ "
Patient Name    : " ++ patient_name ++ "
Age             : " ++ Py.str_of_nat patient_age ++ " Years
Gender          : " ++ patient_gender ++ "
Report Date     : ".

(** The rest of the template after the date: the findings, the diagnosis,
    the risk level and the recommendations, with no placeholder left. *)
Definition diagnostic_text : string :=
  "

MRI SCAN FINDINGS
----------------
The uploaded MRI brain scan was carefully examined.

Abnormal tissue structures were observed,
suggesting the presence of a brain lesion.

CLINICAL SYMPTOM ASSESSMENT
--------------------------
The patient reported neurological symptoms including
headache, visual disturbances, and cognitive discomfort.

The symptoms show clinical correlation with MRI findings.

FINAL DIAGNOSTIC CONCLUSION
--------------------------
Based on combined MRI imaging and symptom evaluation,
there is a high likelihood of a Glioma brain tumor.

RISK ASSESSMENT
---------------
Risk Level : High

MEDICAL RECOMMENDATIONS
-----------------------
• Immediate consultation with a Neurologist
• Further diagnostic confirmation if required
• Continuous neurological monitoring
• Avoid delay in medical evaluation

DISCLAIMER
----------
This report is generated using an AI-assisted system
for educational and research purposes only.
It does not replace professional medical diagnosis.
".

(** A substring test, used to settle [contains] on closed text. *)
Fixpoint is_substring (needle hay : string) : bool :=
  match Py.strip_prefix needle hay with
  | Some _ => true
  | None =>
      match hay with
      | EmptyString => false
      | String _ hay' => is_substring needle hay'
      end
  end.

(** [s] is made only of whitespace code points (in UTF-8): [s] is empty or
    [s.isspace()] holds. *)
Inductive whitespace_only : string -> Prop :=
  | ws_nil : whitespace_only ""
  | ws_one c s :
      Py.is_space1 c = true -> whitespace_only s -> whitespace_only (String c s)
  | ws_two c1 c2 s :
      Py.is_space2 c1 c2 = true -> whitespace_only s ->
      whitespace_only (String c1 (String c2 s))
  | ws_three c1 c2 c3 s :
      Py.is_space3 c1 c2 c3 = true -> whitespace_only s ->
      whitespace_only (String c1 (String c2 (String c3 s))).

Fixpoint has_char (c : ascii) (s : string) : bool :=
  match s with
  | EmptyString => false
  | String d s' => Ascii.eqb c d || has_char c s'
  end.

(** A paragraph verdict for the examples: accept every text without '<'.
    ReportLab parses such a text (after the escaping of line 161 its only
    markup is the entity [&amp;]). *)
Definition accepts_plain_text (t : string) : bool := negb (has_char "<" t).

(** Each '&' becomes "&amp;", every other character is kept as it is. *)
Fixpoint escape_amp (s : string) : string :=
  match s with
  | EmptyString => EmptyString
  | String c s' =>
      if Ascii.eqb c "&" then "&amp;" ++ escape_amp s' else String c (escape_amp s')
  end.


(** ** Sanity checks of the embedding on concrete inputs *)

Example split_example :
  Py.split "a
b&c
" (String "010" "") = ["a"; "b&c"; ""].
Proof. reflexivity. Qed.

Example replace_example : Py.replace "<b>&&x" "&" "&amp;" = "<b>&amp;&amp;x".
Proof. reflexivity. Qed.

Example strip_example : Py.strip (String "009" "  ab c  ") = "ab c".
Proof. reflexivity. Qed.

(** U+00A0 and U+3000 around the text, U+2003 inside it. *)
Example strip_unicode_example :
  Py.strip "  ab c　" = "ab c"
  /\ Py.strip " 　  " = "".
Proof. split; reflexivity. Qed.

Example report_date_example :
  fmt_report_date (mkDateTime 2026 3 7) = "07 March 2026"
  /\ fmt_record_date (mkDateTime 2026 3 7) = "07-03-2026".
Proof. split; reflexivity. Qed.

Example history_label_example :
  history_label 2 (mkPatientRecord "P1" "Jane Doe" "07-03-2026" "")
  = "🧾 2. Jane Doe (07-03-2026)".
Proof. reflexivity. Qed.

(* ================================================================== *)
(** * Properties *)

(** ** General facts about strings *)

Lemma str_app_assoc (a b c : string) : (a ++ b) ++ c = a ++ (b ++ c).
Proof. induction a as [|x a IH]; simpl; [reflexivity | now rewrite IH]. Qed.

Lemma str_app_nil_r (a : string) : a ++ "" = a.
Proof. induction a as [|x a IH]; simpl; [reflexivity | now rewrite IH]. Qed.

Lemma str_length_app (a b : string) :
  String.length (a ++ b) = String.length a + String.length b.
Proof. induction a as [|x a IH]; simpl; [reflexivity | now rewrite IH]. Qed.

Lemma truthy_false (s : string) : Py.truthy s = false <-> s = "".
Proof. destruct s; simpl; split; congruence. Qed.

Lemma truthy_true (s : string) : Py.truthy s = true <-> s <> "".
Proof. destruct s; simpl; split; congruence. Qed.


(** ** Unfolding one re-run by the button that was pressed *)

Section RunByButton.

Variable s : Session.
Variable i : Inputs.

Lemma step_no_click : clicked i = None -> step s i = s.
Proof.
  intros Hc. unfold step, run, analyze_symptoms_block, generate_report_block.
  now rewrite Hc.
Qed.

Lemma run_analyze :
  clicked i = Some AnalyzeSymptoms ->
  run s i =
    (fst (analyze_symptoms_block i s),
     (snd (analyze_symptoms_block i s)
        ++ save_results_block (fst (analyze_symptoms_block i s))
        ++ history_block (fst (analyze_symptoms_block i s)))%list).
Proof.
  intros Hc. unfold run.
  destruct (analyze_symptoms_block i s) as [s1 o1] eqn:E; simpl.
  unfold generate_report_block. now rewrite Hc.
Qed.

Lemma analyze_block_other :
  clicked i <> Some AnalyzeSymptoms -> analyze_symptoms_block i s = (s, []).
Proof.
  intros Hc. unfold analyze_symptoms_block.
  destruct (clicked i) as [[|]|]; congruence.
Qed.

Lemma run_generate :
  clicked i = Some GenerateFullReport ->
  run s i =
    (fst (fst (generate_report_block i s)),
     (save_results_block s ++ snd (fst (generate_report_block i s))
        ++ page_end (snd (generate_report_block i s))
             (fst (fst (generate_report_block i s))))%list).
Proof.
  intros Hc. unfold run. rewrite analyze_block_other by congruence.
  destruct (generate_report_block i s) as [[s2 o3] fl]; reflexivity.
Qed.

(** The guard of lines 174-178 and what a generation that passes it does. *)
Lemma generate_block_cases :
  clicked i = Some GenerateFullReport ->
  (patient_id i = "" \/ patient_name i = "" ->
     generate_report_block i s
       = (s, [Warning "Please enter Patient ID and Patient Name"], Continue))
  /\ (patient_id i <> "" -> patient_name i <> "" -> analysis_done s = false ->
     generate_report_block i s
       = (s, [Warning "Perform analysis before generating report"], Continue))
  /\ (patient_id i <> "" -> patient_name i <> "" -> analysis_done s = true ->
     let report_text :=
        generate_full_medical_report (patient_id i) (patient_name i)
          (patient_age i) (patient_gender i) (now_report i) in
     let record := mkPatientRecord (patient_id i) (patient_name i)
                     (fmt_record_date (now_record i)) report_text in
     let s' := mkSession ((patient_history s ++ [record])%list)
                 (analysis_done s) (Some report_text) in
     let shown := [Success "Full medical report generated and saved successfully";
                   TextArea "📄 Generated Medical Report" report_text 550] in
     generate_report_block i s =
       match generate_pdf report_text with
       | Some pdf =>
           (s', (shown ++ [DownloadButton "📥 Download Report as PDF" pdf
                            (patient_name i ++ "_Medical_Report.pdf")
                            "application/pdf"])%list, Continue)
       | None => (s', shown, Raise "ValueError")
       end).
Proof.
  intros Hc. unfold generate_report_block. rewrite Hc.
  repeat split.
  - intros [H|H]; rewrite H; simpl; [reflexivity|].
    now destruct (Py.truthy (patient_id i)).
  - intros Hid Hn Ha.
    apply truthy_true in Hid, Hn. rewrite Hid, Hn, Ha. reflexivity.
  - intros Hid Hn Ha.
    apply truthy_true in Hid, Hn. rewrite Hid, Hn, Ha. reflexivity.
Qed.

(** A generation that passes the guard: the state it leaves, the two
    elements it always shows, and what the export decides. *)
Lemma generate_block_ok :
  clicked i = Some GenerateFullReport ->
  patient_id i <> "" -> patient_name i <> "" -> analysis_done s = true ->
  let report_text :=
     generate_full_medical_report (patient_id i) (patient_name i)
       (patient_age i) (patient_gender i) (now_report i) in
  let record := mkPatientRecord (patient_id i) (patient_name i)
                  (fmt_record_date (now_record i)) report_text in
  fst (fst (generate_report_block i s))
    = mkSession ((patient_history s ++ [record])%list) true (Some report_text)
  /\ (exists rest,
        snd (fst (generate_report_block i s))
        = Success "Full medical report generated and saved successfully"
          :: TextArea "📄 Generated Medical Report" report_text 550 :: rest
        /\ (forall e, In e rest ->
             exists pdf, e = DownloadButton "📥 Download Report as PDF" pdf
                               (patient_name i ++ "_Medical_Report.pdf")
                               "application/pdf"
                         /\ generate_pdf report_text = Some pdf))
  /\ (forall pdf, generate_pdf report_text = Some pdf ->
       snd (fst (generate_report_block i s))
       = [Success "Full medical report generated and saved successfully";
          TextArea "📄 Generated Medical Report" report_text 550;
          DownloadButton "📥 Download Report as PDF" pdf
            (patient_name i ++ "_Medical_Report.pdf") "application/pdf"]
       /\ snd (generate_report_block i s) = Continue)
  /\ (generate_pdf report_text = None ->
       snd (fst (generate_report_block i s))
       = [Success "Full medical report generated and saved successfully";
          TextArea "📄 Generated Medical Report" report_text 550]
       /\ snd (generate_report_block i s) = Raise "ValueError").
Proof.
  intros Hc Hid Hn Ha report_text record.
  destruct (generate_block_cases Hc) as [_ [_ Hok]].
  rewrite (Hok Hid Hn Ha). fold report_text.
  destruct (generate_pdf report_text) as [pdf|] eqn:E; simpl;
    rewrite Ha; (split; [reflexivity|]).
  - split.
    + eexists. split; [reflexivity|].
      intros e [<-|[]]. eauto.
    + split; [|discriminate]. intros pdf' Hp. injection Hp as <-. auto.
  - split.
    + exists []. split; [reflexivity|]. intros e [].
    + split; [discriminate|]. auto.
Qed.

End RunByButton.

(** No element of the history section is a text area or a download button. *)
Lemma history_block_expanders (s : Session) (e : Element) :
  In e (history_block s) ->
  (exists m, e = Info m) \/ (exists l t, e = Expander l t).
Proof.
  unfold history_block. destruct (patient_history s) as [|r h].
  - intros [<-|[]]. left; eauto.
  - intros Hin. apply in_map_iff in Hin.
    destruct Hin as [[k r'] [<- _]]. right; eauto.
Qed.

Lemma page_end_elements (fl : Flow) (s : Session) (e : Element) :
  In e (page_end fl s) ->
  (exists m, e = Info m) \/ (exists l t, e = Expander l t)
  \/ (exists x, e = ScriptError x).
Proof.
  destruct fl; simpl.
  - intros H. apply history_block_expanders in H. destruct H; auto.
  - intros [<-|[]]. eauto.
Qed.

(* ------------------------------------------------------------------ *)
(** ** Generate Full Report: the guard *)

(** C1: when Generate Full Report is pressed and analysis is not done, or
    the patient id or name is empty, the re-run leaves the whole session
    state unchanged (no record appended, [latest_report] untouched) and shows
    a warning; when analysis is done and both are non-empty, one record is
    appended and its report becomes [latest_report]. *)
Theorem generate_full_report_guard (s : Session) (i : Inputs)
    (Hc : clicked i = Some GenerateFullReport) :
  (analysis_done s = false \/ patient_id i = "" \/ patient_name i = "" ->
     step s i = s /\ exists m, In (Warning m) (outputs s i))
  /\ (analysis_done s = true -> patient_id i <> "" -> patient_name i <> "" ->
     exists r, patient_history (step s i) = (patient_history s ++ [r])%list
       /\ latest_report (step s i) = Some (rec_report r)).
Proof.
  unfold step, outputs. rewrite (run_generate s i Hc).
  destruct (generate_block_cases s i Hc) as [Hempty [Hnot _]].
  split.
  - intros Hpre.
    destruct (string_dec (patient_id i) "") as [Hid|Hid];
      [|destruct (string_dec (patient_name i) "") as [Hn|Hn]].
    + rewrite Hempty by auto; simpl.
      split; [reflexivity|]. eexists; apply in_or_app; right; left; reflexivity.
    + rewrite Hempty by auto; simpl.
      split; [reflexivity|]. eexists; apply in_or_app; right; left; reflexivity.
    + assert (Ha : analysis_done s = false) by (destruct Hpre as [H|[H|H]]; congruence).
      rewrite Hnot by auto; simpl.
      split; [reflexivity|]. eexists; apply in_or_app; right; left; reflexivity.
  - intros Ha Hid Hn.
    destruct (generate_block_ok s i Hc Hid Hn Ha) as [Hs _].
    rewrite Hs; simpl. eexists; split; reflexivity.
Qed.

(* ------------------------------------------------------------------ *)
(** ** Analyze Symptoms *)

(** C4: pressing Analyze Symptoms sets [analysis_done] to true and shows a
    success message when the symptom text is non-empty after [strip()];
    otherwise the session state is unchanged and a warning is shown. *)
Theorem analyze_symptoms_spec (s : Session) (i : Inputs)
    (Hc : clicked i = Some AnalyzeSymptoms) :
  (Py.strip (symptoms i) <> "" ->
     step s i = mkSession (patient_history s) true (latest_report s)
     /\ In (Success "Symptoms analyzed successfully") (outputs s i))
  /\ (Py.strip (symptoms i) = "" ->
     step s i = s /\ In (Warning "Please enter symptoms") (outputs s i)).
Proof.
  unfold step, outputs. rewrite (run_analyze s i Hc); simpl.
  unfold analyze_symptoms_block. rewrite Hc. split.
  - intros Hne. apply truthy_true in Hne. rewrite Hne; simpl. auto.
  - intros He. rewrite He; simpl. auto.
Qed.

(* ------------------------------------------------------------------ *)
(** ** The report text *)



Lemma report_split (pid pname : string) (age : nat) (gender : string)
    (now : DateTime) :
  generate_full_medical_report pid pname age gender now
  = patient_block pid pname age gender ++ fmt_report_date now ++ diagnostic_text.
Proof.
  unfold generate_full_medical_report, patient_block.
  rewrite !str_app_assoc. reflexivity.
Qed.


Lemma strip_prefix_app (n h rest : string) :
  Py.strip_prefix n h = Some rest -> h = n ++ rest.
Proof.
  revert h. induction n as [|c n IH]; intros h H; simpl in *.
  - congruence.
  - destruct h as [|d h]; [discriminate|].
    destruct (Ascii.eqb c d) eqn:E; [|discriminate].
    apply Ascii.eqb_eq in E. subst d. f_equal. now apply IH.
Qed.

Lemma is_substring_contains (n h : string) :
  is_substring n h = true -> contains n h.
Proof.
  induction h as [|c h IH]; simpl; intros H.
  - destruct (Py.strip_prefix n "") as [rest|] eqn:E; [|discriminate].
    exists "", rest. simpl; now apply strip_prefix_app.
  - destruct (Py.strip_prefix n (String c h)) as [rest|] eqn:E.
    + exists "", rest. simpl; now apply strip_prefix_app.
    + destruct (IH H) as [pre [post ->]]. now exists (String c pre), post.
Qed.

Lemma contains_app_l (n a b : string) : contains n a -> contains n (a ++ b).
Proof.
  intros [pre [post ->]]. exists pre, (post ++ b).
  now rewrite !str_app_assoc.
Qed.

Lemma contains_app_r (n a b : string) : contains n b -> contains n (a ++ b).
Proof.
  intros [pre [post ->]]. exists (a ++ pre), post.
  now rewrite !str_app_assoc.
Qed.

(** Which elements each block of the script can show. *)
Lemma save_results_elements (s : Session) (e : Element) :
  In e (save_results_block s) -> (exists m, e = Info m) \/ (exists m, e = Success m).
Proof.
  unfold save_results_block. destruct (negb (analysis_done s));
    intros [<-|[]]; eauto.
Qed.

Lemma analyze_block_elements (s : Session) (i : Inputs) (e : Element) :
  In e (snd (analyze_symptoms_block i s)) ->
  (exists m, e = Warning m) \/ (exists m, e = Success m).
Proof.
  unfold analyze_symptoms_block.
  destruct (match clicked i with Some AnalyzeSymptoms => true | _ => false end);
    [destruct (Py.truthy (Py.strip (symptoms i)))|]; simpl;
    intuition (subst; eauto).
Qed.

(** A text area is shown only by a successful generation, and it shows the
    report that becomes [latest_report]. *)
Lemma text_area_shown (s : Session) (i : Inputs) (l r : string) (h : nat) :
  In (TextArea l r h) (outputs s i) ->
  clicked i = Some GenerateFullReport /\ analysis_done s = true
  /\ patient_id i <> "" /\ patient_name i <> ""
  /\ r = generate_full_medical_report (patient_id i) (patient_name i)
           (patient_age i) (patient_gender i) (now_report i)
  /\ latest_report (step s i) = Some r.
Proof.
  unfold outputs, step.
  destruct (clicked i) as [[|]|] eqn:Hc.
  - rewrite (run_analyze s i Hc); simpl. intros Hin.
    apply in_app_or in Hin as [Hin|Hin];
      [apply analyze_block_elements in Hin|apply in_app_or in Hin as [Hin|Hin];
        [apply save_results_elements in Hin|apply history_block_expanders in Hin]];
      exfalso; destruct Hin as [[m Hm]|[m Hm]]; try discriminate;
      destruct Hm; discriminate.
  - rewrite (run_generate s i Hc).
    destruct (generate_block_cases s i Hc) as [Hempty [Hnot _]].
    destruct (string_dec (patient_id i) "") as [Hid|Hid];
      [|destruct (string_dec (patient_name i) "") as [Hn|Hn]];
      [rewrite Hempty by auto|rewrite Hempty by auto|].
    1,2: simpl; intros Hin; exfalso;
      apply in_app_or in Hin as [Hin|Hin];
      [apply save_results_elements in Hin
      |destruct Hin as [Hin|Hin]; [discriminate|apply history_block_expanders in Hin]];
      destruct Hin as [[m Hm]|[m Hm]]; try discriminate; destruct Hm; discriminate.
    destruct (analysis_done s) eqn:Ha.
    + destruct (generate_block_ok s i Hc Hid Hn Ha) as [Hs [[rest [Ho Hrest]] _]].
      rewrite Hs, Ho. simpl. intros Hin.
      apply in_app_or in Hin as [Hin|Hin].
      { apply save_results_elements in Hin.
        destruct Hin as [[m Hm]|[m Hm]]; discriminate. }
      destruct Hin as [Hin|[Hin|Hin]]; [discriminate| |].
      * injection Hin as <- <- <-. repeat split; auto.
      * exfalso. apply in_app_or in Hin as [Hin|Hin].
        -- apply Hrest in Hin. destruct Hin as [pdf [Hx _]]. discriminate.
        -- apply page_end_elements in Hin.
           destruct Hin as [[m Hm]|[[m [t Hm]]|[m Hm]]]; discriminate.
    + rewrite (Hnot Hid Hn eq_refl); simpl. intros Hin. exfalso.
      apply in_app_or in Hin as [Hin|Hin];
      [apply save_results_elements in Hin
      |destruct Hin as [Hin|Hin]; [discriminate|apply history_block_expanders in Hin]];
      destruct Hin as [[m Hm]|[m Hm]]; try discriminate; destruct Hm; discriminate.
  - unfold run. rewrite analyze_block_other by congruence.
    unfold generate_report_block. rewrite Hc. simpl. intros Hin. exfalso.
    apply in_app_or in Hin as [Hin|Hin];
      [apply save_results_elements in Hin|apply history_block_expanders in Hin];
      destruct Hin as [[m Hm]|[m Hm]]; try discriminate; destruct Hm; discriminate.
Qed.

(** C2: the report a re-run produces depends only on the patient id, name,
    age, gender and the report date: two re-runs that agree on these five
    values produce the same text, whatever the symptom text, the uploaded
    file, the other widgets or the session state; and the text after the
    date ([diagnostic_text]: tumor type, risk level, recommendations) is one
    constant. *)
Theorem report_pure_in_five_inputs (s1 s2 : Session) (i1 i2 : Inputs)
    (r1 r2 : string)
    (Hid : patient_id i1 = patient_id i2)
    (Hname : patient_name i1 = patient_name i2)
    (Hage : patient_age i1 = patient_age i2)
    (Hgender : patient_gender i1 = patient_gender i2)
    (Hdate : now_report i1 = now_report i2)
    (H1 : In (TextArea "📄 Generated Medical Report" r1 550) (outputs s1 i1))
    (H2 : In (TextArea "📄 Generated Medical Report" r2 550) (outputs s2 i2)) :
  r1 = r2
  /\ r1 = patient_block (patient_id i1) (patient_name i1) (patient_age i1)
            (patient_gender i1) ++ fmt_report_date (now_report i1)
          ++ diagnostic_text.
Proof.
  apply text_area_shown in H1 as (_ & _ & _ & _ & -> & _).
  apply text_area_shown in H2 as (_ & _ & _ & _ & -> & _).
  split.
  - now rewrite Hid, Hname, Hage, Hgender, Hdate.
  - apply report_split.
Qed.

(** C3: with analysis done and id "P1", name "Jane Doe", age 45 and gender
    "Female", Generate Full Report produces a report, whatever the symptom
    text, that contains the four patient lines, "Glioma" and
    "Risk Level : High". *)
Theorem report_contents_jane_doe (s : Session) (i : Inputs)
    (Ha : analysis_done s = true)
    (Hc : clicked i = Some GenerateFullReport)
    (Hid : patient_id i = "P1") (Hname : patient_name i = "Jane Doe")
    (Hage : patient_age i = 45) (Hgender : patient_gender i = "Female") :
  exists r, latest_report (step s i) = Some r
    /\ In (TextArea "📄 Generated Medical Report" r 550) (outputs s i)
    /\ contains "Patient ID      : P1" r
    /\ contains "Patient Name    : Jane Doe" r
    /\ contains "Age             : 45 Years" r
    /\ contains "Gender          : Female" r
    /\ contains "Glioma" r
    /\ contains "Risk Level : High" r.
Proof.
  assert (Hid' : patient_id i <> "") by (rewrite Hid; discriminate).
  assert (Hn' : patient_name i <> "") by (rewrite Hname; discriminate).
  destruct (generate_block_ok s i Hc Hid' Hn' Ha) as [Hs [[rest [Ho _]] _]].
  unfold step, outputs. rewrite (run_generate s i Hc), Hs, Ho; simpl.
  eexists. split; [reflexivity|]. split.
  { apply in_or_app. right. right. left. reflexivity. }
  rewrite report_split, Hid, Hname, Hage, Hgender.
  repeat split;
    solve [ apply contains_app_l, is_substring_contains; vm_compute; reflexivity
          | apply contains_app_r, contains_app_r, is_substring_contains;
            vm_compute; reflexivity ].
Qed.

(* ------------------------------------------------------------------ *)
(** ** The record store *)

(** One re-run either leaves the history alone or is a successful
    generation, which appends exactly the record it built. *)
Lemma step_history_cases (s : Session) (i : Inputs) :
  let report_text :=
    generate_full_medical_report (patient_id i) (patient_name i)
      (patient_age i) (patient_gender i) (now_report i) in
  let record := mkPatientRecord (patient_id i) (patient_name i)
                  (fmt_record_date (now_record i)) report_text in
  (patient_history (step s i) = patient_history s
   /\ latest_report (step s i) = latest_report s)
  \/ (clicked i = Some GenerateFullReport /\ analysis_done s = true
      /\ patient_id i <> "" /\ patient_name i <> ""
      /\ patient_history (step s i) = (patient_history s ++ [record])%list
      /\ latest_report (step s i) = Some report_text
      /\ In (Success "Full medical report generated and saved successfully")
            (outputs s i)).
Proof.
  intros report_text record. unfold step, outputs.
  destruct (clicked i) as [[|]|] eqn:Hc.
  - left. rewrite (run_analyze s i Hc); simpl.
    unfold analyze_symptoms_block. rewrite Hc.
    destruct (Py.truthy (Py.strip (symptoms i))); simpl; auto.
  - rewrite (run_generate s i Hc); simpl.
    destruct (generate_block_cases s i Hc) as [Hempty [Hnot Hok]].
    destruct (string_dec (patient_id i) "") as [Hid|Hid];
      [|destruct (string_dec (patient_name i) "") as [Hn|Hn]].
    1,2: left; rewrite Hempty by auto; simpl; auto.
    destruct (analysis_done s) eqn:Ha.
    + right. destruct (generate_block_ok s i Hc Hid Hn Ha) as [Hs [[rest [Ho _]] _]].
      rewrite Hs, Ho; simpl.
      repeat split; auto. apply in_or_app. right. left. reflexivity.
    + left. rewrite (Hnot Hid Hn eq_refl); simpl; auto.
  - left. unfold run. rewrite analyze_block_other by congruence.
    unfold generate_report_block. rewrite Hc. simpl. auto.
Qed.

(** [analysis_done] is never reset by a re-run. *)
Lemma step_analysis_done (s : Session) (i : Inputs) :
  analysis_done s = true -> analysis_done (step s i) = true.
Proof.
  intros Ha. unfold step.
  destruct (clicked i) as [[|]|] eqn:Hc.
  - rewrite (run_analyze s i Hc); simpl. unfold analyze_symptoms_block.
    rewrite Hc. now destruct (Py.truthy (Py.strip (symptoms i))).
  - rewrite (run_generate s i Hc); simpl. unfold generate_report_block.
    rewrite Hc, Ha; simpl.
    destruct (negb (Py.truthy (patient_id i)) || negb (Py.truthy (patient_name i)));
      [exact Ha|].
    now destruct (generate_pdf _).
  - fold (step s i). now rewrite (step_no_click s i Hc).
Qed.

Lemma run_all_analysis_done (s : Session) (is : list Inputs) :
  analysis_done s = true -> analysis_done (run_all s is) = true.
Proof.
  revert s. induction is as [|i is IH]; intros s Ha; simpl; auto.
  apply IH, step_analysis_done, Ha.
Qed.

Lemma reachable_history (s : Session) :
  reachable s ->
  Forall (fun r => rec_id r <> "" /\ rec_name r <> "") (patient_history s).
Proof.
  induction 1 as [|s i _ IH]; [constructor|].
  destruct (step_history_cases s i)
    as [[-> _]|(_ & _ & Hid & Hn & -> & _)]; auto.
  apply Forall_app. split; auto.
Qed.

(** C5: every record in the history of a reachable session state has a
    non-empty id and a non-empty name, and a re-run that changes the history
    appends one such record from a state where [analysis_done] is true. *)
Theorem history_records_guarded (s : Session) (Hr : reachable s) (i : Inputs) :
  Forall (fun r => rec_id r <> "" /\ rec_name r <> "") (patient_history s)
  /\ (patient_history (step s i) <> patient_history s ->
      analysis_done s = true
      /\ exists r, patient_history (step s i) = (patient_history s ++ [r])%list
                   /\ rec_id r <> "" /\ rec_name r <> "").
Proof.
  split; [now apply reachable_history|].
  intros Hch.
  destruct (step_history_cases s i)
    as [[Heq _]|(_ & Ha & Hid & Hn & Happ & _)]; [contradiction|].
  split; [assumption|]. eexists. split; [exact Happ|]. simpl. auto.
Qed.

Lemma enumerate_nth {A} (n : nat) (l : list A) (k : nat) :
  nth_error (enumerate n l) k = option_map (fun x => (n + k, x)) (nth_error l k).
Proof.
  revert n k. induction l as [|x l IH]; intros n [|k]; simpl; auto.
  - now rewrite Nat.add_0_r.
  - rewrite IH. destruct (nth_error l k); simpl; auto.
    now rewrite Nat.add_succ_r.
Qed.

Lemma enumerate_length {A} (n : nat) (l : list A) :
  length (enumerate n l) = length l.
Proof. revert n. induction l; simpl; auto. Qed.

(** The history section shows the [k]-th record (from 0) as the expander
    labelled with position [k + 1], its name and its date. *)
Lemma history_block_nth (s : Session) (k : nat) (r : PatientRecord) :
  nth_error (patient_history s) k = Some r ->
  nth_error (history_block s) k
  = Some (Expander (history_label (S k) r) (rec_report r)).
Proof.
  unfold history_block. destruct (patient_history s) as [|r0 h] eqn:E.
  - destruct k; discriminate.
  - intros Hk. rewrite <- E in *.
    rewrite nth_error_map, enumerate_nth, Hk. reflexivity.
Qed.

Lemma history_block_length (s : Session) :
  patient_history s <> [] ->
  length (history_block s) = length (patient_history s).
Proof.
  unfold history_block. destruct (patient_history s) as [|r0 h] eqn:E.
  - contradiction.
  - intros _. rewrite <- E. now rewrite length_map, enumerate_length.
Qed.

(** A generation block raises only when the export of the report it has
    just stored fails. *)
Lemma generate_block_raise (s : Session) (i : Inputs) (s2 : Session)
    (o3 : list Element) (e : string) :
  generate_report_block i s = (s2, o3, Raise e) ->
  e = "ValueError" /\ patient_history s2 <> []
  /\ exists r, latest_report s2 = Some r /\ generate_pdf r = None.
Proof.
  unfold generate_report_block.
  destruct (match clicked i with Some GenerateFullReport => true | _ => false end);
    [|intros H; discriminate H].
  destruct (negb (Py.truthy (patient_id i)) || negb (Py.truthy (patient_name i)));
    [intros H; discriminate H|].
  destruct (negb (analysis_done s)); [intros H; discriminate H|].
  destruct (generate_pdf _) eqn:E; [intros H; discriminate H|].
  intros H. injection H as <- <- <-.
  split; [reflexivity|]. split; [simpl; destruct (patient_history s); discriminate|].
  eexists; split; [reflexivity|exact E].
Qed.

(** Every re-run ends by rendering the history of the state it leaves,
    unless the export raised: then the page ends with the traceback. *)
Lemma outputs_end (s : Session) (i : Inputs) :
  (exists pre, outputs s i = (pre ++ history_block (step s i))%list)
  \/ (exists pre r, outputs s i = (pre ++ [ScriptError "ValueError"])%list
        /\ patient_history (step s i) <> []
        /\ latest_report (step s i) = Some r /\ generate_pdf r = None).
Proof.
  unfold outputs, step, run.
  destruct (analyze_symptoms_block i s) as [s1 o1].
  destruct (generate_report_block i s1) as [[s2 o3] fl] eqn:EG; simpl.
  destruct fl as [|e].
  - left. exists (o1 ++ save_results_block s1 ++ o3)%list.
    now rewrite <- !app_assoc.
  - right. destruct (generate_block_raise s1 i s2 o3 e EG) as [-> [Hne [r Hr]]].
    exists (o1 ++ save_results_block s1 ++ o3)%list, r.
    split; [now rewrite <- !app_assoc|]. split; [exact Hne|exact Hr].
Qed.

(** A Generate Full Report that passes the guard appends its record. *)
Lemma generation_appends (s : Session) (i : Inputs) :
  clicked i = Some GenerateFullReport -> analysis_done s = true ->
  patient_id i <> "" -> patient_name i <> "" ->
  patient_history (step s i)
  = (patient_history s
     ++ [mkPatientRecord (patient_id i) (patient_name i)
           (fmt_record_date (now_record i))
           (generate_full_medical_report (patient_id i) (patient_name i)
              (patient_age i) (patient_gender i) (now_report i))])%list.
Proof.
  intros Hc Ha Hid Hn.
  destruct (generate_block_ok s i Hc Hid Hn Ha) as [Hs _].
  unfold step. rewrite (run_generate s i Hc), Hs. reflexivity.
Qed.

(** The same successful generation, repeated, appends one record per
    re-run. *)
Lemma repeat_generation (s : Session) (i : Inputs) (n : nat) :
  clicked i = Some GenerateFullReport -> analysis_done s = true ->
  patient_id i <> "" -> patient_name i <> "" ->
  patient_history (run_all s (repeat i n))
  = (patient_history s
     ++ repeat (mkPatientRecord (patient_id i) (patient_name i)
                  (fmt_record_date (now_record i))
                  (generate_full_medical_report (patient_id i) (patient_name i)
                     (patient_age i) (patient_gender i) (now_report i))) n)%list.
Proof.
  intros Hc Ha Hid Hn. revert s Ha. induction n as [|n IH]; intros s Ha; simpl.
  - now rewrite app_nil_r.
  - rewrite (IH (step s i) (step_analysis_done s i Ha)).
    rewrite (generation_appends s i Hc Ha Hid Hn).
    now rewrite <- app_assoc.
Qed.

(** C6: the history is append-only.  A re-run either leaves it unchanged or
    is a successful generation that appends exactly one record at its end;
    repeating the same generation appends one equal record per re-run (no
    deduplication).  A re-run ends by rendering the history section of the
    state it leaves (or, when the PDF export raised, with the traceback, the
    history being rendered by the next re-run); that section has one
    expander per record, in order, labelled with its 1-based position, name
    and date. *)
Theorem history_append_only (s : Session) (i : Inputs) :
  (patient_history (step s i) = patient_history s
   \/ exists r, patient_history (step s i) = (patient_history s ++ [r])%list
        /\ latest_report (step s i) = Some (rec_report r)
        /\ In (Success "Full medical report generated and saved successfully")
              (outputs s i))
  /\ (clicked i = Some GenerateFullReport -> analysis_done s = true ->
      patient_id i <> "" -> patient_name i <> "" ->
      exists r, forall n,
        patient_history (run_all s (repeat i n))
        = (patient_history s ++ repeat r n)%list)
  /\ ((exists pre, outputs s i = (pre ++ history_block (step s i))%list)
      \/ (exists pre r, outputs s i = (pre ++ [ScriptError "ValueError"])%list
            /\ latest_report (step s i) = Some r /\ generate_pdf r = None))
  /\ (patient_history (step s i) <> [] ->
      length (history_block (step s i)) = length (patient_history (step s i)))
  /\ (forall k r, nth_error (patient_history (step s i)) k = Some r ->
      exists text, nth_error (history_block (step s i)) k
                   = Some (Expander (history_label (S k) r) text)).
Proof.
  split; [|split; [|split; [|split]]].
  - destruct (step_history_cases s i)
      as [[Heq _]|(_ & _ & _ & _ & Happ & Hl & Hin)]; [now left|].
    right. eexists. split; [exact Happ|]. split; [exact Hl|exact Hin].
  - intros Hc Ha Hid Hn. eexists. intros n. now apply repeat_generation.
  - destruct (outputs_end s i) as [H|(pre & r & Ho & _ & Hl & Hp)];
      [now left|right; eauto].
  - apply history_block_length.
  - intros k r Hk. eexists. now apply history_block_nth.
Qed.

(* ------------------------------------------------------------------ *)
(** ** The download button *)

(** C8: a successful generation stores its report [r]; the download
    button for the PDF of [r], under the file name
    [patient_name + "_Medical_Report.pdf"] with MIME type "application/pdf",
    is shown exactly when the export builds that PDF.  When the export
    raises (ReportLab rejects a line of [r], e.g. "Patient Name    : A<B"),
    no download button is shown and the page ends with the traceback.  Any
    download button of the re-run has that file name and MIME type. *)
Theorem download_file_name (s : Session) (i : Inputs)
    (Hc : clicked i = Some GenerateFullReport) (Ha : analysis_done s = true)
    (Hid : patient_id i <> "") (Hn : patient_name i <> "") :
  exists r, latest_report (step s i) = Some r
  /\ (forall pdf, generate_pdf r = Some pdf ->
        In (DownloadButton "📥 Download Report as PDF" pdf
              (patient_name i ++ "_Medical_Report.pdf") "application/pdf")
           (outputs s i))
  /\ (generate_pdf r = None ->
        (forall l d fn m, ~ In (DownloadButton l d fn m) (outputs s i))
        /\ exists pre, outputs s i = (pre ++ [ScriptError "ValueError"])%list)
  /\ (forall l d fn m, In (DownloadButton l d fn m) (outputs s i) ->
      fn = patient_name i ++ "_Medical_Report.pdf" /\ m = "application/pdf").
Proof.
  destruct (generate_block_ok s i Hc Hid Hn Ha)
    as [Hs [[rest [Ho Hrest]] [Hsome Hnone]]].
  eexists. unfold step, outputs. rewrite (run_generate s i Hc), Hs.
  split; [reflexivity|]. split; [|split].
  - intros pdf Hp. destruct (Hsome pdf Hp) as [Ho' Hf]. rewrite Ho', Hf. simpl.
    apply in_or_app. right. right. right. left. reflexivity.
  - intros Hp. destruct (Hnone Hp) as [Ho' Hf]. rewrite Ho', Hf. simpl. split.
    + intros l d fn m Hin. apply in_app_or in Hin as [Hin|Hin].
      * apply save_results_elements in Hin.
        destruct Hin as [[x Hx]|[x Hx]]; discriminate.
      * destruct Hin as [H|[H|[H|[]]]]; discriminate.
    + exists (save_results_block s
              ++ [Success "Full medical report generated and saved successfully";
                  TextArea "📄 Generated Medical Report"
                    (generate_full_medical_report (patient_id i) (patient_name i)
                       (patient_age i) (patient_gender i) (now_report i)) 550])%list.
      now rewrite <- app_assoc.
  - intros l d fn m Hin. rewrite Ho in Hin.
    apply in_app_or in Hin as [Hin|Hin].
    + apply save_results_elements in Hin.
      destruct Hin as [[x Hx]|[x Hx]]; discriminate.
    + destruct Hin as [H|[H|H]]; try discriminate.
      apply in_app_or in H as [H|H].
      * apply Hrest in H. destruct H as [pdf [Heq _]].
        injection Heq as _ _ <- <-. auto.
      * apply page_end_elements in H.
        destruct H as [[x Hx]|[[x [t Hx]]|[x Hx]]]; discriminate.
Qed.

(* ------------------------------------------------------------------ *)
(** ** Whitespace-only patient id and name *)


(** The lead byte of a two- or three-byte whitespace code point is not
    itself whitespace, nor the start of a shorter one. *)
Lemma is_space2_lead (c1 c2 : ascii) :
  Py.is_space2 c1 c2 = true -> Py.is_space1 c1 = false.
Proof.
  unfold Py.is_space1, Py.is_space2. cbv zeta.
  generalize (nat_of_ascii c1) (nat_of_ascii c2). intros n1 n2 H.
  apply andb_prop in H as [H _]. apply Nat.eqb_eq in H. now subst.
Qed.

Lemma is_space3_lead (c1 c2 c3 : ascii) :
  Py.is_space3 c1 c2 c3 = true ->
  Py.is_space1 c1 = false /\ Py.is_space2 c1 c2 = false.
Proof.
  unfold Py.is_space1, Py.is_space2, Py.is_space3. cbv zeta.
  generalize (nat_of_ascii c1) (nat_of_ascii c2) (nat_of_ascii c3).
  intros n1 n2 n3 H.
  destruct (Nat.eqb_spec n1 225) as [->|N1]; [split; reflexivity|].
  destruct (Nat.eqb_spec n1 226) as [->|N2]; [split; reflexivity|].
  destruct (Nat.eqb_spec n1 227) as [->|N3]; [split; reflexivity|].
  simpl in H. discriminate H.
Qed.

Lemma lstrip_whitespace_only (s : string) :
  whitespace_only s -> Py.lstrip s = "".
Proof.
  induction 1 as [|c s Hc _ IH|c1 c2 s Hc _ IH|c1 c2 c3 s Hc _ IH].
  - reflexivity.
  - simpl. now rewrite Hc.
  - simpl. now rewrite (is_space2_lead c1 c2 Hc), Hc.
  - destruct (is_space3_lead c1 c2 c3 Hc) as [H1 H2].
    simpl. now rewrite H1, H2, Hc.
Qed.

Lemma strip_whitespace_only (s : string) :
  whitespace_only s -> Py.strip s = "".
Proof.
  intros H. unfold Py.strip. rewrite (lstrip_whitespace_only s H). reflexivity.
Qed.

(** Analyze Symptoms with a symptom text that strips to nothing. *)
Lemma analyze_refused (s : Session) (i : Inputs) :
  clicked i = Some AnalyzeSymptoms -> Py.strip (symptoms i) = "" ->
  step s i = s /\ In (Warning "Please enter symptoms") (outputs s i).
Proof.
  intros Hc He. unfold step, outputs. rewrite (run_analyze s i Hc); simpl.
  unfold analyze_symptoms_block. rewrite Hc, He. simpl. auto.
Qed.

(** C9: the Generate Full Report guard only tests that id and name are
    non-empty: with analysis done, an id and a name made only of whitespace
    (any of the code points [str.isspace] accepts) are accepted and stored
    as they are, while Analyze Symptoms refuses the same whitespace as
    symptom text. *)
Theorem whitespace_identity_accepted (s : Session) (i : Inputs)
    (Ha : analysis_done s = true) (Hc : clicked i = Some GenerateFullReport)
    (Hid : patient_id i <> "") (Hn : patient_name i <> "")
    (Hsid : whitespace_only (patient_id i))
    (Hsn : whitespace_only (patient_name i)) :
  (exists r, patient_history (step s i) = (patient_history s ++ [r])%list
     /\ rec_id r = patient_id i /\ rec_name r = patient_name i
     /\ Py.strip (rec_id r) = "" /\ Py.strip (rec_name r) = "")
  /\ (forall i', clicked i' = Some AnalyzeSymptoms ->
      symptoms i' = patient_id i ->
      step s i' = s /\ In (Warning "Please enter symptoms") (outputs s i')).
Proof.
  split.
  - eexists. split; [exact (generation_appends s i Hc Ha Hid Hn)|]. simpl.
    repeat split; auto; now apply strip_whitespace_only.
  - intros i' Hc' Hsym.
    apply (analyze_refused s i' Hc').
    rewrite Hsym. now apply strip_whitespace_only.
Qed.

(* ------------------------------------------------------------------ *)
(** ** [analysis_done] is monotone *)

(** C10: once [analysis_done] is true no later re-run resets it, and from
    then on every Generate Full Report with a non-empty id and name appends a
    record without a new analysis. *)
Theorem analysis_done_monotone (s : Session) (is : list Inputs)
    (Ha : analysis_done s = true) :
  analysis_done (run_all s is) = true
  /\ (Forall (fun i => clicked i = Some GenerateFullReport
                       /\ patient_id i <> "" /\ patient_name i <> "") is ->
      length (patient_history (run_all s is))
      = length (patient_history s) + length is).
Proof.
  split; [now apply run_all_analysis_done|].
  revert s Ha. induction is as [|i is IH]; intros s Ha Hall; simpl; auto.
  inversion Hall as [|? ? [Hc [Hid Hn]] Hrest]; subst.
  rewrite (IH (step s i) (step_analysis_done s i Ha) Hrest).
  rewrite (generation_appends s i Hc Ha Hid Hn), length_app. simpl. lia.
Qed.

(* ------------------------------------------------------------------ *)
(** ** PDF story: lines, paragraphs and escaping *)



Lemma escape_amp_app (a b : string) : escape_amp (a ++ b) = escape_amp a ++ escape_amp b.
Proof.
  induction a as [|c a IH]; simpl; auto.
  rewrite IH. destruct (Ascii.eqb c "&"); simpl; auto.
Qed.

Lemma escape_amp_id (a : string) : has_char "&" a = false -> escape_amp a = a.
Proof.
  induction a as [|c a IH]; cbn [escape_amp has_char]; auto.
  intros H. apply Bool.orb_false_iff in H as [Hc Ha].
  rewrite Ascii.eqb_sym, Hc. now rewrite IH.
Qed.

(** [find_sep] with a one-character separator. *)
Lemma find_sep_char_some (c : ascii) (s pre post : string) :
  Py.find_sep (String c "") s = Some (pre, post) ->
  s = pre ++ String c post /\ has_char c pre = false
  /\ String.length post < String.length s.
Proof.
  revert pre post. induction s as [|d s IH]; intros pre post H; simpl in H.
  - discriminate.
  - destruct (Ascii.eqb c d) eqn:E.
    + injection H as <- <-. apply Ascii.eqb_eq in E. subst d.
      simpl. repeat split; auto.
    + destruct (Py.find_sep (String c "") s) as [[p q]|] eqn:F; [|discriminate].
      injection H as <- <-.
      destruct (IH p q eq_refl) as (-> & Hp & Hl).
      simpl. rewrite E, Hp. repeat split; auto.
Qed.

Lemma find_sep_char_none (c : ascii) (s : string) :
  Py.find_sep (String c "") s = None -> has_char c s = false.
Proof.
  induction s as [|d s IH]; simpl; auto.
  destruct (Ascii.eqb c d) eqn:E; [discriminate|].
  destruct (Py.find_sep (String c "") s) as [[p q]|]; [discriminate|].
  intros _. rewrite IH; auto.
Qed.

Lemma split_fuel_nonempty (f : nat) (sep s : string) : Py.split_fuel f sep s <> [].
Proof.
  destruct f; simpl; [discriminate|].
  destruct (Py.find_sep sep s) as [[p q]|]; discriminate.
Qed.

Lemma join_cons (sep x : string) (xs : list string) :
  xs <> [] -> Py.join sep (x :: xs) = x ++ sep ++ Py.join sep xs.
Proof. destruct xs; [contradiction|reflexivity]. Qed.

(** Splitting at a one-character separator: joining the pieces back gives
    the text, and no piece holds the separator. *)
Lemma split_fuel_char (c : ascii) (f : nat) (s : string) :
  String.length s < f ->
  Py.join (String c "") (Py.split_fuel f (String c "") s) = s
  /\ Forall (fun l => has_char c l = false) (Py.split_fuel f (String c "") s).
Proof.
  revert s. induction f as [|f IH]; intros s Hf; [lia|]. simpl.
  destruct (Py.find_sep (String c "") s) as [[pre post]|] eqn:F.
  - destruct (find_sep_char_some c s pre post F) as (-> & Hpre & Hlen).
    destruct (IH post ltac:(lia)) as [Hj Hall].
    split; [|constructor; auto].
    rewrite join_cons by apply split_fuel_nonempty. now rewrite Hj.
  - split; [reflexivity|]. constructor; [|constructor].
    now apply find_sep_char_none.
Qed.

(** [replace("&", "&amp;")] is [escape_amp]. *)
Lemma replace_fuel_amp (f : nat) (s : string) :
  String.length s < f -> Py.replace_fuel f "&" "&amp;" s = escape_amp s.
Proof.
  revert s. induction f as [|f IH]; intros s Hf; [lia|]. simpl.
  destruct (Py.find_sep "&" s) as [[pre post]|] eqn:F.
  - destruct (find_sep_char_some "&" s pre post F) as (-> & Hpre & Hlen).
    rewrite IH by lia.
    rewrite escape_amp_app, (escape_amp_id pre Hpre). reflexivity.
  - symmetry. apply escape_amp_id. now apply find_sep_char_none.
Qed.

Lemma replace_amp (s : string) : Py.replace s "&" "&amp;" = escape_amp s.
Proof. apply replace_fuel_amp. lia. Qed.

(** The loop of lines 160-162 builds its story exactly when [Paragraph]
    accepts every escaped line. *)
Lemma story_of_lines_spec (ls : list string) :
  story_of_lines ls
  = if forallb (fun l => para_ok (escape_amp l)) ls
    then Some (flat_map (fun l => [Paragraph (escape_amp l) "Normal"; Spacer 1 144]) ls)
    else None.
Proof.
  induction ls as [|l ls IH]; [reflexivity|]. simpl.
  rewrite replace_amp, IH.
  destruct (para_ok (escape_amp l)); simpl; [|reflexivity].
  now destruct (forallb (fun l => para_ok (escape_amp l)) ls).
Qed.

(** C7: the export cuts the report text at each newline and hands each
    line to [Paragraph] with every '&' replaced by "&amp;" and every other
    character (among them '<' and '>') kept as it is.  When ReportLab
    accepts all these texts the document is the A4 template with, for each
    line, one paragraph of it followed by one fixed spacer; when it rejects
    one of them (e.g. "Patient Name    : A<B"), the export raises and no
    document is built. *)
Theorem pdf_story_lines (report_text : string) :
  exists lines,
    Py.join (String "010" "") lines = report_text
    /\ Forall (fun l => has_char "010" l = false) lines
    /\ (forall l, has_char "&" l = false -> escape_amp l = l)
    /\ (forallb (fun l => para_ok (escape_amp l)) lines = true ->
        generate_pdf report_text
        = Some (mkDocument pdf_template
                  (flat_map (fun l => [Paragraph (escape_amp l) "Normal"; Spacer 1 144])
                     lines)))
    /\ (forallb (fun l => para_ok (escape_amp l)) lines = false ->
        generate_pdf report_text = None).
Proof.
  exists (Py.split report_text (String "010" "")).
  destruct (split_fuel_char "010" (S (String.length report_text)) report_text
              ltac:(lia)) as [Hj Hall].
  split; [exact Hj|]. split; [exact Hall|]. split; [exact escape_amp_id|].
  unfold generate_pdf. rewrite story_of_lines_spec.
  split; intros H; rewrite H; reflexivity.
Qed.

(* ================================================================== *)
(** * Further properties of the script *)

(** ** What each button can change *)

(** Frame conditions of one re-run: only Generate Full Report touches the
    history and [latest_report], only Analyze Symptoms touches
    [analysis_done], and a re-run with no button pressed changes nothing. *)
Theorem button_frames (s : Session) (i : Inputs) :
  (clicked i <> Some GenerateFullReport ->
     patient_history (step s i) = patient_history s
     /\ latest_report (step s i) = latest_report s)
  /\ (clicked i <> Some AnalyzeSymptoms ->
     analysis_done (step s i) = analysis_done s)
  /\ (clicked i = None -> step s i = s).
Proof.
  split; [|split].
  - intros Hc. destruct (step_history_cases s i)
      as [H|(Hc' & _)]; [exact H|contradiction].
  - intros Hc. unfold step.
    destruct (clicked i) as [[|]|] eqn:Hc'; [congruence| |].
    + rewrite (run_generate s i Hc'); simpl. unfold generate_report_block.
      rewrite Hc'.
      destruct (negb (Py.truthy (patient_id i)) || negb (Py.truthy (patient_name i)));
        [reflexivity|].
      destruct (analysis_done s) eqn:E; simpl; [destruct (generate_pdf _)|]; auto.
    + fold (step s i). now rewrite (step_no_click s i Hc').
  - apply step_no_click.
Qed.

(** ** Which warning a refused Generate Full Report shows *)

(** The id/name check of line 174 comes before the analysis check of line
    176: a refused Generate Full Report shows exactly one warning, the
    id/name one whenever the id or the name is empty (even if no analysis
    was done), the analysis one otherwise, and nothing else from its block. *)
Theorem generate_refusal_message (s : Session) (i : Inputs)
    (Hc : clicked i = Some GenerateFullReport) :
  (patient_id i = "" \/ patient_name i = "" ->
     outputs s i = (save_results_block s
                    ++ [Warning "Please enter Patient ID and Patient Name"]
                    ++ history_block s)%list)
  /\ (patient_id i <> "" -> patient_name i <> "" -> analysis_done s = false ->
     outputs s i = (save_results_block s
                    ++ [Warning "Perform analysis before generating report"]
                    ++ history_block s)%list).
Proof.
  destruct (generate_block_cases s i Hc) as [Hempty [Hnot _]].
  unfold outputs. rewrite (run_generate s i Hc). split.
  - intros H. rewrite (Hempty H). reflexivity.
  - intros Hid Hn Ha. rewrite (Hnot Hid Hn Ha). reflexivity.
Qed.

(** ** Invariants of the session state *)

(** In every reachable state, [latest_report] is the report of the last
    record of the history, and is [None] exactly when the history is
    empty (lines 29, 180 and 182-187 update them together). *)
Theorem latest_report_is_last_record (s : Session) (Hr : reachable s) :
  (patient_history s = [] /\ latest_report s = None)
  \/ exists h r, patient_history s = (h ++ [r])%list
                 /\ latest_report s = Some (rec_report r).
Proof.
  induction Hr as [|s i _ IH]; [left; split; reflexivity|].
  destruct (step_history_cases s i)
    as [[-> ->]|(_ & _ & _ & _ & -> & -> & _)]; [exact IH|].
  right. eexists _, _. split; reflexivity.
Qed.

(** While analysis is not done, a re-run that is not a successful Analyze
    Symptoms changes nothing. *)
Lemma step_idle_before_analysis (s : Session) (i : Inputs) :
  analysis_done s = false ->
  ~ (clicked i = Some AnalyzeSymptoms /\ Py.strip (symptoms i) <> "") ->
  step s i = s.
Proof.
  intros Ha Hn. destruct (clicked i) as [[|]|] eqn:Hc.
  - apply analyze_refused; auto.
    destruct (string_dec (Py.strip (symptoms i)) "") as [E|E]; auto.
    exfalso; auto.
  - destruct (generate_block_cases s i Hc) as [Hempty [Hnot _]].
    unfold step. rewrite (run_generate s i Hc); simpl.
    destruct (string_dec (patient_id i) "") as [Hid|Hid];
      [|destruct (string_dec (patient_name i) "") as [Hnm|Hnm]].
    1,2: now rewrite Hempty by auto.
    now rewrite (Hnot Hid Hnm Ha).
  - now apply step_no_click.
Qed.

Lemma no_record_before_analysis_gen (s : Session) (is : list Inputs) :
  analysis_done s = false -> patient_history s = [] ->
  patient_history (run_all s is) <> [] ->
  exists pre i post,
    is = (pre ++ i :: post)%list
    /\ clicked i = Some AnalyzeSymptoms /\ Py.strip (symptoms i) <> ""
    /\ patient_history (run_all s (pre ++ [i])) = [].
Proof.
  revert s. induction is as [|i is IH]; intros s Ha Hh Hne; simpl in *.
  - contradiction.
  - destruct (match clicked i with Some AnalyzeSymptoms => true | _ => false end)
      eqn:Hc;
      [destruct (string_dec (Py.strip (symptoms i)) "") as [E|E]|].
    + rewrite (step_idle_before_analysis s i Ha) in Hne
        by (intros [_ H]; contradiction).
      destruct (IH s Ha Hh Hne) as (pre & j & post & -> & Hj).
      exists (i :: pre), j, post. simpl.
      rewrite (step_idle_before_analysis s i Ha) by (intros [_ H]; contradiction).
      auto.
    + destruct (clicked i) as [[|]|] eqn:Hc'; try discriminate.
      exists [], i, is. simpl. repeat split; auto.
      destruct (step_history_cases s i) as [[-> _]|(H & _)]; [exact Hh|].
      congruence.
    + rewrite (step_idle_before_analysis s i Ha) in Hne
        by (intros [H _]; rewrite H in Hc; discriminate).
      destruct (IH s Ha Hh Hne) as (pre & j & post & -> & Hj).
      exists (i :: pre), j, post. simpl.
      rewrite (step_idle_before_analysis s i Ha)
        by (intros [H _]; rewrite H in Hc; discriminate).
      auto.
Qed.

(** Starting from a fresh session, a record is only ever stored after a
    successful Analyze Symptoms: some earlier re-run pressed Analyze
    Symptoms with a symptom text that is not blank, and the history was
    still empty right after it. *)
Theorem no_record_before_analysis (is : list Inputs)
    (Hne : patient_history (run_all init_session is) <> []) :
  exists pre i post,
    is = (pre ++ i :: post)%list
    /\ clicked i = Some AnalyzeSymptoms /\ Py.strip (symptoms i) <> ""
    /\ patient_history (run_all init_session (pre ++ [i])) = [].
Proof. now apply no_record_before_analysis_gen. Qed.

(** ** The Save Results and Patient History sections *)

Lemma generate_block_analysis_done (s : Session) (i : Inputs) :
  analysis_done (fst (fst (generate_report_block i s))) = analysis_done s.
Proof.
  unfold generate_report_block.
  destruct (match clicked i with Some GenerateFullReport => true | _ => false end);
    [|reflexivity].
  destruct (negb (Py.truthy (patient_id i)) || negb (Py.truthy (patient_name i)));
    [reflexivity|].
  destruct (analysis_done s) eqn:E; simpl; [destruct (generate_pdf _)|]; auto.
Qed.

(** The Save Results section (lines 84-87) is written after the Analyze
    Symptoms block and reads the flag as it is at the end of the re-run:
    a successful Analyze Symptoms is reported as "ready" in the same
    re-run, and nothing but the Analyze Symptoms messages comes before it. *)
Theorem save_section_current_flag (s : Session) (i : Inputs) :
  (exists post, outputs s i
     = (snd (analyze_symptoms_block i s) ++ save_results_block (step s i) ++ post)%list)
  /\ (analysis_done (step s i) = true ->
      In (Success "Analysis data ready to generate report.") (outputs s i))
  /\ (analysis_done (step s i) = false ->
      In (Info "No analysis results to save. Perform MRI or symptom analysis first.")
         (outputs s i)).
Proof.
  assert (Hdec : exists post, outputs s i
     = (snd (analyze_symptoms_block i s) ++ save_results_block (step s i) ++ post)%list).
  { unfold outputs, step, run.
    destruct (analyze_symptoms_block i s) as [s1 o1].
    pose proof (generate_block_analysis_done s1 i) as Hf.
    destruct (generate_report_block i s1) as [[s2 o3] fl]; simpl in *.
    exists (o3 ++ page_end fl s2)%list.
    unfold save_results_block. now rewrite Hf. }
  destruct Hdec as [post Hpost].
  split; [now exists post|].
  rewrite Hpost. unfold save_results_block.
  split; intros Ha; rewrite Ha; simpl;
    apply in_or_app; right; left; reflexivity.
Qed.




(** ** Size of the exported document *)









(** ** The record date *)

Lemma pad2_length (n : nat) : (n < 100)%nat -> String.length (pad2 n) = 2.
Proof.
  intros H.
  assert (Hall : forallb (fun k => Nat.eqb (String.length (pad2 k)) 2) (seq 0 100) = true)
    by (vm_compute; reflexivity).
  rewrite forallb_forall in Hall.
  apply Nat.eqb_eq, Hall, in_seq. lia.
Qed.

Lemma year_length (y : nat) :
  (1000 <= y < 10 * 1000)%nat -> String.length (Py.str_of_nat y) = 4.
Proof.
  intros H.
  assert (Hall : forallb (fun k => Nat.eqb (String.length (Py.str_of_nat k)) 4)
                   (seq 1000 (9 * 1000)) = true)
    by (vm_compute; reflexivity).
  rewrite forallb_forall in Hall.
  apply Nat.eqb_eq, Hall, in_seq. lia.
Qed.

Lemma get_app_r (a b : string) (n : nat) :
  String.get (String.length a + n) (a ++ b) = String.get n b.
Proof. rewrite (append_correct2 a b n), Nat.add_comm. reflexivity. Qed.

(** For every date with a four-digit year, the date stored with a record
    and shown in its history label ([strftime("%d-%m-%Y")], line 185) has
    the fixed shape dd-mm-yyyy: ten characters with '-' at positions 2
    and 5. *)
Theorem record_date_shape (t : DateTime)
    (Hd : (1 <= day t <= 31)%nat) (Hm : (1 <= month t <= 12)%nat)
    (Hy : (1000 <= year t < 10 * 1000)%nat) :
  String.length (fmt_record_date t) = 10
  /\ String.get 2 (fmt_record_date t) = Some "-"%char
  /\ String.get 5 (fmt_record_date t) = Some "-"%char.
Proof.
  unfold fmt_record_date.
  pose proof (pad2_length (day t) ltac:(lia)) as Hd2.
  pose proof (pad2_length (month t) ltac:(lia)) as Hm2.
  pose proof (year_length (year t) Hy) as Hy4.
  split; [|split].
  - rewrite !str_length_app, Hd2, Hm2, Hy4. reflexivity.
  - replace 2%nat with (String.length (pad2 (day t)) + 0)%nat by lia.
    rewrite get_app_r. reflexivity.
  - replace 5%nat with
      (String.length (pad2 (day t)) + S (String.length (pad2 (month t)) + 0))%nat
      by lia.
    rewrite get_app_r. cbn [String.append String.get].
    rewrite get_app_r. reflexivity.
Qed.

End Script.

(* ================================================================== *)
(** * The theorems on concrete re-runs

    The examples take [accepts_plain_text] as the paragraph verdict. *)

Lemma generate_full_report_guard_witness :
  let s := mkSession [] false None in
  let i := mkInputs "P1" "Jane Doe" 45 "Female" false None "headache"
             (Some GenerateFullReport) (mkDateTime 2026 10 19)
             (mkDateTime 2026 10 19) in
  clicked i = Some GenerateFullReport /\
  step accepts_plain_text s i = s
  /\ exists m, In (Warning m) (outputs accepts_plain_text s i).
Proof.
  intros s i. split; [reflexivity|].
  apply (proj1 (generate_full_report_guard accepts_plain_text s i eq_refl)).
  left; reflexivity.
Defined.

(** A symptom text with a word is accepted; one made of U+00A0 and U+3000
    is refused. *)
Lemma analyze_symptoms_spec_witness :
  let s := init_session in
  let i := mkInputs "" "" 30 "Male" true None "  headache  "
             (Some AnalyzeSymptoms) (mkDateTime 2026 10 19)
             (mkDateTime 2026 10 19) in
  let i' := mkInputs "" "" 30 "Male" true None " 　 "
              (Some AnalyzeSymptoms) (mkDateTime 2026 10 19)
              (mkDateTime 2026 10 19) in
  (step accepts_plain_text s i = mkSession [] true None
   /\ In (Success "Symptoms analyzed successfully") (outputs accepts_plain_text s i))
  /\ (step accepts_plain_text s i' = s
      /\ In (Warning "Please enter symptoms") (outputs accepts_plain_text s i')).
Proof.
  intros s i i'. split.
  - apply (proj1 (analyze_symptoms_spec accepts_plain_text s i eq_refl)).
    vm_compute. discriminate.
  - apply (proj2 (analyze_symptoms_spec accepts_plain_text s i' eq_refl)).
    vm_compute. reflexivity.
Defined.

Lemma report_pure_in_five_inputs_witness :
  let s1 := mkSession [] true None in
  let s2 := mkSession [] true (Some "old") in
  let i1 := mkInputs "P1" "Jane Doe" 45 "Female" true None "headache"
              (Some GenerateFullReport) (mkDateTime 2026 10 19)
              (mkDateTime 2026 10 19) in
  let i2 := mkInputs "P1" "Jane Doe" 45 "Female" false
              (Some (mkUploadedFile "scan.png" [x89; x50; x4e; x47]))
              "no symptoms at all" (Some GenerateFullReport)
              (mkDateTime 2026 10 19) (mkDateTime 2026 10 20) in
  exists r1 r2,
    In (TextArea "📄 Generated Medical Report" r1 550)
       (outputs accepts_plain_text s1 i1)
    /\ In (TextArea "📄 Generated Medical Report" r2 550)
          (outputs accepts_plain_text s2 i2)
    /\ r1 = r2.
Proof.
  intros s1 s2 i1 i2.
  set (r := generate_full_medical_report "P1" "Jane Doe" 45 "Female"
              (mkDateTime 2026 10 19)).
  assert (H1 : In (TextArea "📄 Generated Medical Report" r 550)
                  (outputs accepts_plain_text s1 i1))
    by (vm_compute; auto).
  assert (H2 : In (TextArea "📄 Generated Medical Report" r 550)
                  (outputs accepts_plain_text s2 i2))
    by (vm_compute; auto).
  exists r, r. split; [exact H1|]. split; [exact H2|].
  exact (proj1 (report_pure_in_five_inputs accepts_plain_text s1 s2 i1 i2 r r
                  eq_refl eq_refl eq_refl eq_refl eq_refl H1 H2)).
Defined.

Lemma report_contents_jane_doe_witness :
  let s := mkSession [] true None in
  let i := mkInputs "P1" "Jane Doe" 45 "Female" true None ""
             (Some GenerateFullReport) (mkDateTime 2026 10 19)
             (mkDateTime 2026 10 19) in
  exists r, latest_report (step accepts_plain_text s i) = Some r
    /\ In (TextArea "📄 Generated Medical Report" r 550)
          (outputs accepts_plain_text s i)
    /\ contains "Patient ID      : P1" r
    /\ contains "Patient Name    : Jane Doe" r
    /\ contains "Age             : 45 Years" r
    /\ contains "Gender          : Female" r
    /\ contains "Glioma" r
    /\ contains "Risk Level : High" r.
Proof.
  intros s i. apply report_contents_jane_doe; reflexivity.
Defined.

Lemma history_records_guarded_witness :
  let s := step accepts_plain_text init_session
             (mkInputs "" "" 30 "Male" true None "headache"
                (Some AnalyzeSymptoms) (mkDateTime 2026 10 19)
                (mkDateTime 2026 10 19)) in
  let i := mkInputs "P1" "Jane Doe" 45 "Female" true None ""
             (Some GenerateFullReport) (mkDateTime 2026 10 19)
             (mkDateTime 2026 10 19) in
  reachable accepts_plain_text s /\
  Forall (fun r => rec_id r <> "" /\ rec_name r <> "") (patient_history s)
  /\ (patient_history (step accepts_plain_text s i) <> patient_history s ->
      analysis_done s = true
      /\ exists r, patient_history (step accepts_plain_text s i)
                   = (patient_history s ++ [r])%list
                   /\ rec_id r <> "" /\ rec_name r <> "").
Proof.
  intros s i.
  assert (Hr : reachable accepts_plain_text s)
    by (apply reachable_step, reachable_init).
  split; [exact Hr|]. apply (history_records_guarded accepts_plain_text s Hr i).
Defined.

Lemma history_append_only_witness :
  let s := mkSession [] true None in
  let i := mkInputs "P1" "Jane Doe" 45 "Female" true None ""
             (Some GenerateFullReport) (mkDateTime 2026 10 19)
             (mkDateTime 2026 10 19) in
  exists r, patient_history (run_all accepts_plain_text s (repeat i 2)) = [r; r].
Proof.
  intros s i.
  destruct (proj1 (proj2 (history_append_only accepts_plain_text s i)) eq_refl
              eq_refl ltac:(discriminate) ltac:(discriminate)) as [r Hr].
  exists r. apply (Hr 2).
Defined.

(** The failing input of C8: the name "A<B" puts "<B" in a line of the
    report; the generation stores the record, but no download is offered. *)
Lemma download_file_name_witness :
  let s := mkSession [] true None in
  let i := mkInputs "P1" "A<B" 45 "Female" true None ""
             (Some GenerateFullReport) (mkDateTime 2026 10 19)
             (mkDateTime 2026 10 19) in
  exists r, latest_report (step accepts_plain_text s i) = Some r
    /\ generate_pdf accepts_plain_text r = None
    /\ (forall l d fn m,
          ~ In (DownloadButton l d fn m) (outputs accepts_plain_text s i))
    /\ exists pre, outputs accepts_plain_text s i
                   = (pre ++ [ScriptError "ValueError"])%list.
Proof.
  intros s i.
  destruct (download_file_name accepts_plain_text s i eq_refl eq_refl
              ltac:(discriminate) ltac:(discriminate))
    as (r & Hl & _ & Hnone & _).
  assert (Hr : generate_pdf accepts_plain_text r = None).
  { pose proof Hl as Hl'. vm_compute in Hl'. injection Hl' as <-.
    vm_compute. reflexivity. }
  exists r. split; [exact Hl|]. split; [exact Hr|]. exact (Hnone Hr).
Defined.

(** An id made of U+3000 and a name made of one space. *)
Lemma whitespace_identity_accepted_witness :
  let s := mkSession [] true None in
  let i := mkInputs "　" " " 30 "Male" true None ""
             (Some GenerateFullReport) (mkDateTime 2026 10 19)
             (mkDateTime 2026 10 19) in
  exists r, patient_history (step accepts_plain_text s i) = [r]
     /\ rec_id r = "　" /\ rec_name r = " "
     /\ Py.strip (rec_id r) = "" /\ Py.strip (rec_name r) = "".
Proof.
  intros s i.
  apply (proj1 (whitespace_identity_accepted accepts_plain_text s i eq_refl eq_refl
                  ltac:(discriminate) ltac:(discriminate)
                  ltac:(apply ws_three; [reflexivity|apply ws_nil])
                  ltac:(apply ws_one; [reflexivity|apply ws_nil]))).
Defined.

Lemma analysis_done_monotone_witness :
  let s := mkSession [] true None in
  let i := mkInputs "P1" "Jane Doe" 45 "Female" true None ""
             (Some AnalyzeSymptoms) (mkDateTime 2026 10 19)
             (mkDateTime 2026 10 19) in
  analysis_done (run_all accepts_plain_text s [i]) = true.
Proof.
  intros s i. apply (proj1 (analysis_done_monotone accepts_plain_text s [i] eq_refl)).
Defined.

Lemma button_frames_witness :
  let s := mkSession [] true (Some "r") in
  let i := mkInputs "P1" "Jane Doe" 45 "Female" true None "headache"
             (Some AnalyzeSymptoms) (mkDateTime 2026 10 19)
             (mkDateTime 2026 10 19) in
  patient_history (step accepts_plain_text s i) = []
  /\ latest_report (step accepts_plain_text s i) = Some "r".
Proof.
  intros s i.
  apply (proj1 (button_frames accepts_plain_text s i)). discriminate.
Defined.

Lemma generate_refusal_message_witness :
  let s := init_session in
  let i := mkInputs "" "Jane Doe" 45 "Female" true None ""
             (Some GenerateFullReport) (mkDateTime 2026 10 19)
             (mkDateTime 2026 10 19) in
  outputs accepts_plain_text s i
  = [Info "No analysis results to save. Perform MRI or symptom analysis first.";
     Warning "Please enter Patient ID and Patient Name";
     Info "No patient history available yet."].
Proof.
  intros s i.
  apply (proj1 (generate_refusal_message accepts_plain_text s i eq_refl)).
  left. reflexivity.
Defined.

(** After an analysis and a generation the history holds one record, whose
    report is [latest_report]. *)
Lemma latest_report_is_last_record_witness :
  let a := mkInputs "" "" 30 "Male" true None "headache"
             (Some AnalyzeSymptoms) (mkDateTime 2026 10 19)
             (mkDateTime 2026 10 19) in
  let g := mkInputs "P1" "Jane Doe" 45 "Female" true None ""
             (Some GenerateFullReport) (mkDateTime 2026 10 19)
             (mkDateTime 2026 10 19) in
  let s := step accepts_plain_text (step accepts_plain_text init_session a) g in
  reachable accepts_plain_text s /\ patient_history s <> [] /\
  ((patient_history s = [] /\ latest_report s = None)
   \/ exists h r, patient_history s = (h ++ [r])%list
                  /\ latest_report s = Some (rec_report r)).
Proof.
  intros a g s.
  assert (Hr : reachable accepts_plain_text s)
    by (apply reachable_step, reachable_step, reachable_init).
  split; [exact Hr|]. split; [vm_compute; discriminate|].
  exact (latest_report_is_last_record accepts_plain_text s Hr).
Defined.

Lemma no_record_before_analysis_witness :
  let a := mkInputs "" "" 30 "Male" true None "headache"
             (Some AnalyzeSymptoms) (mkDateTime 2026 10 19)
             (mkDateTime 2026 10 19) in
  let g := mkInputs "P1" "Jane Doe" 45 "Female" true None ""
             (Some GenerateFullReport) (mkDateTime 2026 10 19)
             (mkDateTime 2026 10 19) in
  exists pre i post,
    [g; a; g] = (pre ++ i :: post)%list
    /\ clicked i = Some AnalyzeSymptoms /\ Py.strip (symptoms i) <> ""
    /\ patient_history (run_all accepts_plain_text init_session (pre ++ [i])) = [].
Proof.
  intros a g. apply no_record_before_analysis. vm_compute. discriminate.
Defined.



Lemma record_date_shape_witness :
  String.length (fmt_record_date (mkDateTime 2026 3 7)) = 10
  /\ String.get 2 (fmt_record_date (mkDateTime 2026 3 7)) = Some "-"%char
  /\ String.get 5 (fmt_record_date (mkDateTime 2026 3 7)) = Some "-"%char.
Proof. apply record_date_shape; simpl; lia. Defined.
